(** * A litellm-backed custom model client for autogen

    Shallow embedding of [notebook/gemini_custom_model_client.ipynb]:
    the class [CustomModelClient] (its five methods), the configuration
    list of the notebook, and the agent-side client registry the notebook
    drives through [register_model_client].

    Python values are dynamically typed, so the embedding works over one
    type [value] of Python objects and an explicit type [exn] of raised
    exceptions.  The provider call [litellm.completion] and the framework's
    log output are the effects of the program: methods run in a small monad
    that threads the provider calls made and the notices logged so far. *)

From stdpp Require Import gmap strings list fin_maps.
From Stdlib Require Import ZArith Lia.

Open Scope Z_scope.

(** ** Python values *)

(** Dictionaries and attribute tables are keyed by strings, which is all
    the notebook uses.  [VObj] is an attribute-bearing record such as the
    response objects litellm returns (pydantic models): attributes are read
    by name, and iterating one yields its (field, value) pairs. *)
#[warnings="-register-all"]
Inductive value : Type :=
| VNone
| VInt (z : Z)
| VStr (s : string)
| VList (l : list value)
| VTuple (l : list value)
| VDict (d : gmap string value)
| VObj (attrs : gmap string value).

Inductive exn : Type :=
| AttributeError (name : string)
| KeyError (key : string)
| TypeError
| ValueError
| ProviderError (status : option Z)
| ConfigurationError (identifier : option string).

Inductive result (A : Type) : Type :=
| Ok (a : A)
| Raise (e : exn).
Arguments Ok {A} a.
Arguments Raise {A} e.

(** An instance's [__dict__]. *)
Abbreviation instance := (gmap string value) (only parsing).
(** A Python [dict] with string keys. *)
Abbreviation dict := (gmap string value) (only parsing).

(** ** The world: provider calls and log output *)

(** [calls] has one entry per call of [completion(model=..., messages=...)];
    [notices] holds the lines the framework's logger has written. *)
Record world : Type := World {
  calls : list (value * value);
  notices : list string
}.

(** The provider behind [litellm.completion].  Its answer may depend on how
    many calls were made before (a provider can fail once and then
    succeed), and it may raise. *)
Class Provider : Type := completion : nat → value → value → result value.

Definition M (A : Type) : Type := world → result A * world.

#[global] Instance M_ret : MRet M := λ A a w, (Ok a, w).
#[global] Instance M_bind : MBind M := λ A B f m w,
  match m w with
  | (Ok a, w') => f a w'
  | (Raise e, w') => (Raise e, w')
  end.

Definition raise {A : Type} (e : exn) : M A := λ w, (Raise e, w).

Definition lift {A : Type} (r : result A) : M A := λ w, (r, w).

(** [completion(model=model, messages=messages)]: asks the provider and
    records the call. *)
Definition call_completion {provider : Provider} (model messages : value) : M value :=
  λ w, (completion (length (calls w)) model messages,
        {| calls := calls w ++ [(model, messages)]; notices := notices w |}).

(** ** Python primitives used by the notebook *)

Module Py.

(** [obj.name].  None of the attribute names the notebook reads
    ([choices], [message], [content], [usage]) exists on [None], numbers,
    strings, lists, tuples or dicts. *)
Definition getattr (obj : value) (name : string) : result value :=
  match obj with
  | VObj attrs =>
      match attrs !! name with
      | Some v => Ok v
      | None => Raise (AttributeError name)
      end
  | _ => Raise (AttributeError name)
  end.

(** [self.name] on an instance. *)
Definition getattr_self (self : instance) (name : string) : result value :=
  match self !! name with
  | Some v => Ok v
  | None => Raise (AttributeError name)
  end.

(** [self.name = v]. *)
Definition setattr_self (self : instance) (name : string) (v : value)
  : instance := <[name := v]> self.

(** [d[key]]. *)
Definition getitem (d : dict) (key : string) : result value :=
  match d !! key with
  | Some v => Ok v
  | None => Raise (KeyError key)
  end.

(** [d.get(key, fallback)]. *)
Definition dict_get (d : dict) (key : string) (fallback : value) : value :=
  match d !! key with
  | Some v => v
  | None => fallback
  end.

(** The one-character strings a [str] iterates over (one per character
    of an ASCII string). *)
Fixpoint chars (s : string) : list value :=
  match s with
  | EmptyString => []
  | String c rest => VStr (String c EmptyString) :: chars rest
  end.

Definition pair_of (kv : string * value) : value :=
  VTuple [VStr kv.1; kv.2].

(** [iter(v)], forced: the elements a [for] clause runs over.  The keys of
    a dictionary come in the order of the map, which keeps no insertion
    order. *)
Definition iterate (v : value) : result (list value) :=
  match v with
  | VList l | VTuple l => Ok l
  | VStr s => Ok (chars s)
  | VDict d => Ok ((λ kv, VStr kv.1) <$> map_to_list d)
  | VObj attrs => Ok (pair_of <$> map_to_list attrs)
  | VNone | VInt _ => Raise TypeError
  end.

(** [[f(x) for x in l]]: evaluation stops at the first exception. *)
Fixpoint comprehension (f : value → result value) (l : list value)
  : result (list value) :=
  match l with
  | [] => Ok []
  | x :: xs =>
      match f x with
      | Raise e => Raise e
      | Ok y =>
          match comprehension f xs with
          | Raise e => Raise e
          | Ok ys => Ok (y :: ys)
          end
      end
  end.

(** One element of the sequence given to [dict(...)]: it must itself
    iterate to exactly two values, the key and the item.  Dictionaries of
    the model are keyed by strings, so a key that is not a string is
    rejected the way Python rejects an unhashable key. *)
Definition dict_item (x : value) : result (string * value) :=
  match iterate x with
  | Raise _ => Raise TypeError
  | Ok [VStr k; v] => Ok (k, v)
  | Ok [_; _] => Raise TypeError
  | Ok _ => Raise ValueError
  end.

Fixpoint dict_of_items (l : list value) (acc : dict) : result dict :=
  match l with
  | [] => Ok acc
  | x :: xs =>
      match dict_item x with
      | Raise e => Raise e
      | Ok (k, v) => dict_of_items xs (<[k := v]> acc)
      end
  end.

(** [dict(v)]: a mapping is copied, a record gives its fields, any other
    iterable must yield key/item pairs. *)
Definition dict_of (v : value) : result value :=
  match v with
  | VDict d => Ok (VDict d)
  | VObj attrs => Ok (VDict attrs)
  | _ =>
      match iterate v with
      | Raise e => Raise e
      | Ok l =>
          match dict_of_items l ∅ with
          | Ok d => Ok (VDict d)
          | Raise e => Raise e
          end
      end
  end.

End Py.

(** ** class CustomModelClient *)

Module CustomModelClient.

Definition default_model : value := VStr "gemini/gemini-pro".

(** [def __init__(self, config)]:
    [self.model = config.get("model", "gemini/gemini-pro")]. *)
Definition __init__ (self : instance) (config : dict) : M instance :=
  mret (Py.setattr_self self "model"
          (Py.dict_get config "model" default_model)).

(** [CustomModelClient(config)]: a fresh instance, then [__init__]. *)
Definition new (config : dict) : M instance := __init__ ∅ config.

(** [def create(self, params)]: the keyword arguments are evaluated left
    to right, [self.model] then [params["messages"]], before the call. *)
Definition create {provider : Provider} (self : instance) (params : dict) : M value :=
  model ← lift (Py.getattr_self self "model");
  messages ← lift (Py.getitem params "messages");
  response ← call_completion model messages;
  mret response.

(** [choice.message.content]. *)
Definition choice_content (choice : value) : result value :=
  match Py.getattr choice "message" with
  | Ok message => Py.getattr message "content"
  | Raise e => Raise e
  end.

(** [def message_retrieval(self, response)]:
    [choices = response.choices]
    [return [choice.message.content for choice in choices]]. *)
Definition message_retrieval (self : instance) (response : value)
  : M value :=
  choices ← lift (Py.getattr response "choices");
  elements ← lift (Py.iterate choices);
  texts ← lift (Py.comprehension choice_content elements);
  mret (VList texts).

(** [def cost(self, response)]: [return 0]. *)
Definition cost (self : instance) (response : value) : M value :=
  mret (VInt 0).

(** [def get_usage(response)] (a static method):
    [return dict(response.usage)]. *)
Definition get_usage (response : value) : M value :=
  usage ← lift (Py.getattr response "usage");
  lift (Py.dict_of usage).

(** The keys the class docstring requires of [get_usage]'s result. *)
Definition RESPONSE_USAGE_KEYS : list string :=
  ["prompt_tokens"; "completion_tokens"; "total_tokens"; "cost"; "model"].

End CustomModelClient.

(** ** The notebook's configuration *)

(** [config_list_custom], and the list under [llm_config['config_list']]. *)
Definition config_list_custom : list (gmap string value) :=
  [ {[ "model" := VStr "gemini/gemini-pro";
       "model_client_cls" := VStr "CustomModelClient" ]} ].

(** ** The client registry and one generation turn *)

Module Registry.

(** Modelled from the spec: the uniform adapter surface (construct,
    generate, extract_text, compute_cost, compute_usage) of section 4.2;
    the framework's client protocol is not part of the notebook. *)
Record ModelClient : Type := {
  construct : gmap string value → M (gmap string value);
  generate : gmap string value → gmap string value → M value;
  extract_text : gmap string value → value → M value;
  compute_cost : gmap string value → value → M value;
  compute_usage : value → M value
}.

(** The notebook's class, seen through that surface. *)
Definition CustomModelClient_cls {provider : Provider} : ModelClient := {|
  construct := CustomModelClient.new;
  generate := CustomModelClient.create;
  extract_text := CustomModelClient.message_retrieval;
  compute_cost := CustomModelClient.cost;
  compute_usage := CustomModelClient.get_usage
|}.

(** Modelled from the spec: the Agent of section 3, which owns a list of
    adapter configurations, the adapter types registered for it and the
    adapters resolved so far, keyed by class identifier; the agent classes
    are imported by the notebook, not defined in it. *)
Record Agent : Type := {
  configurations : list (gmap string value);
  registered : gmap string ModelClient;
  resolved : gmap string (gmap string value)
}.

(** The line the constructing cell of the notebook printed for its custom
    client class. *)
Definition detected_notice (identifier : string) : string :=
  "Detected custom model client in config: " +:+ identifier
  +:+ ", model client can not be used until register_model_client is called.".

(** The notices for the entries of a configuration list that name a
    custom client class. *)
Fixpoint detected_notices (config_list : list (gmap string value))
  : list string :=
  match config_list with
  | [] => []
  | entry :: rest =>
      match entry !! "model_client_cls" with
      | Some (VStr identifier) =>
          detected_notice identifier :: detected_notices rest
      | _ => detected_notices rest
      end
  end.

(** Modelled from the spec: agent construction, which is given the
    configuration list (section 6) and is missing from the notebook.  It
    starts with nothing registered: in the notebook the agent is built from
    [llm_config] first and [register_model_client] is a method called on it
    afterwards, the recorded output of the constructing cell being only the
    notice that the client cannot be used until it is registered.  The
    configuration is therefore validated by [validate], once the classes
    are registered and before generation begins. *)
Definition AssistantAgent (config_list : list (gmap string value)) : M Agent :=
  λ w, (Ok {| configurations := config_list; registered := ∅; resolved := ∅ |},
        {| calls := calls w;
           notices := notices w ++ detected_notices config_list |}).

(** The configuration entry names the adapter class [identifier]. *)
Definition names_class (identifier : string) (entry : gmap string value)
  : bool :=
  match entry !! "model_client_cls" with
  | Some (VStr named) => String.eqb named identifier
  | _ => false
  end.

(** Modelled from the spec: register(agent, adapter_class_identifier,
    adapter_type) of section 4.3, which associates the identifier with a
    constructible adapter type for one agent; the notebook only calls it.
    A class that no entry of the agent's configuration names is refused at
    registration, with a [ValueError]. *)
Definition register_model_client (agent : Agent) (identifier : string)
    (cls : ModelClient) : M Agent :=
  if existsb (names_class identifier) (configurations agent)
  then mret {| configurations := configurations agent;
               registered := <[identifier := cls]> (registered agent);
               resolved := resolved agent |}
  else raise ValueError.

(** Modelled from the spec: resolve(agent, configuration_entry) of section
    4.3, missing from the notebook: it looks up the entry's class
    identifier (the [model_client_cls] key of the notebook's configuration),
    constructs the adapter with the entry as configuration and caches the
    instance for reuse; an unregistered identifier, like a malformed entry,
    is a ConfigurationError. *)
Definition resolve (agent : Agent) (entry : gmap string value)
  : M (Agent * ModelClient * gmap string value) :=
  match entry !! "model_client_cls" with
  | Some (VStr identifier) =>
      match registered agent !! identifier with
      | None => raise (ConfigurationError (Some identifier))
      | Some cls =>
          match resolved agent !! identifier with
          | Some adapter => mret (agent, cls, adapter)
          | None =>
              adapter ← construct cls entry;
              mret ({| configurations := configurations agent;
                       registered := registered agent;
                       resolved := <[identifier := adapter]> (resolved agent) |},
                    cls, adapter)
          end
      end
  | _ => raise (ConfigurationError None)
  end.

(** Modelled from the spec: the generation part of a turn (section 4.4),
    missing from the notebook: the acting agent resolves an adapter from
    the first entry of its configuration list, calls generate with the
    history and extracts the text. *)
Definition generate_turn (agent : Agent) (history : list value)
  : M (Agent * value) :=
  match configurations agent with
  | [] => raise (ConfigurationError None)
  | entry :: _ =>
      r ← resolve agent entry;
      response ← generate r.1.2 r.2 {[ "messages" := VList history ]};
      texts ← extract_text r.1.2 r.2 response;
      mret (r.1.1, texts)
  end.

(** Modelled from the spec: the validation of sections 4.3 and 7, missing
    from the notebook: an adapter identifier that cannot be resolved, like
    a malformed entry, anywhere in the configuration list is a
    ConfigurationError, detected before generation begins and not when a
    turn first needs the adapter.  Only the registration is looked up: no
    adapter is constructed. *)
Fixpoint validate_entries (classes : gmap string ModelClient)
    (config_list : list (gmap string value)) : result unit :=
  match config_list with
  | [] => Ok tt
  | entry :: rest =>
      match entry !! "model_client_cls" with
      | Some (VStr identifier) =>
          match classes !! identifier with
          | None => Raise (ConfigurationError (Some identifier))
          | Some _ => validate_entries classes rest
          end
      | _ => Raise (ConfigurationError None)
      end
  end.

Definition validate (agent : Agent) : M unit :=
  lift (validate_entries (registered agent) (configurations agent)).

(** Modelled from the spec: Initiate of section 4.4, seen from the
    responding agent; the notebook only calls [initiate_chat].  In the
    notebook it comes after the agent is constructed and its client class
    registered: the configuration is validated, the history is seeded with
    the opening message, and the agent takes its turn. *)
Definition initiate_chat (agent : Agent) (opening_message : value)
  : M (Agent * value) :=
  validate agent ≫= λ _, generate_turn agent [opening_message].

End Registry.

(** ** Shapes of responses and sample data *)

(** [choice.message.content] exists and is [text]. *)
Definition has_content (choice text : value) : Prop :=
  ∃ message, Py.getattr choice "message" = Ok message
             ∧ Py.getattr message "content" = Ok text.

(** A response whose [choices] is a list of choices that each carry a
    message with a content field (possibly [None]). *)
Definition well_formed_response (response : value) (choices : list value)
  : Prop :=
  Py.getattr response "choices" = Ok (VList choices)
  ∧ Forall (λ choice, ∃ text, has_content choice text) choices.

(** The two violations of the response contract: no choice at all, or a
    choice without its message. *)
Definition violates_contract (response : value) : Prop :=
  ∃ choices, Py.getattr response "choices" = Ok (VList choices)
    ∧ (choices = []
       ∨ ∃ choice, choice ∈ choices
                   ∧ Py.getattr choice "message" = Raise (AttributeError "message")).

(** A configuration field is retained by an adapter when it is stored as an
    attribute of its own or inside a mapping held in some attribute. *)
Definition retains (self : gmap string value) (key : string) (v : value)
  : Prop :=
  self !! key = Some v
  ∨ ∃ attribute settings, self !! attribute = Some (VDict settings)
                          ∧ settings !! key = Some v.

(** The agent's configuration names an adapter class that nothing has
    registered for it. *)
Definition names_unregistered (agent : Registry.Agent) (identifier : string)
  : Prop :=
  ∃ entry, entry ∈ Registry.configurations agent
    ∧ entry !! "model_client_cls" = Some (VStr identifier)
    ∧ Registry.registered agent !! identifier = None.

Definition message (role : string) (content : value) : value :=
  VObj {[ "role" := VStr role; "content" := content ]}.

Definition choice (m : value) : value := VObj {[ "message" := m ]}.

(** Token counters as litellm reports them: three counters, no pricing and
    no model name. *)
Definition reported_usage : gmap string value :=
  {[ "prompt_tokens" := VInt 7; "completion_tokens" := VInt 12;
     "total_tokens" := VInt 19 ]}.

(** The reply of the notebook's run, as a response object. *)
Definition hello_response : value :=
  VObj {[ "model" := VStr "gemini/gemini-pro";
          "choices" := VList [choice (message "assistant" (VStr "print('Hello World!')"))];
          "usage" := VObj reported_usage ]}.

(** A response with no choice in it. *)
Definition empty_response : value :=
  VObj {[ "model" := VStr "gemini/gemini-pro"; "choices" := VList [] ]}.

(** A response the provider sent without usage data. *)
Definition response_without_usage : value :=
  VObj {[ "model" := VStr "gemini/gemini-pro";
          "choices" := VList [choice (message "assistant" VNone)] ]}.

(** The opening message of the notebook's chat. *)
Definition opening_history : list value :=
  [ VDict {[ "content" := VStr "Write python code to print Hello World!";
             "role" := VStr "user" ]} ].

Definition opening_params : gmap string value :=
  {[ "messages" := VList opening_history ]}.

(** A provider that always answers. *)
Definition steady_provider : Provider := λ _ _ _, Ok hello_response.

(** A provider that is unavailable at the first call and answers from the
    second call on. *)
Definition flaky_provider : Provider := λ n _ _,
  match n with
  | O => Raise (ProviderError (Some 503))
  | S _ => Ok hello_response
  end.

Definition w0 : world := {| calls := []; notices := [] |}.

(** An agent whose first configured class is registered and whose second
    one is not. *)
Definition half_registered_agent : Registry.Agent :=
  {| Registry.configurations :=
       [ {[ "model" := VStr "gemini/gemini-pro";
            "model_client_cls" := VStr "CustomModelClient" ]};
         {[ "model" := VStr "gemini/gemini-pro-vision";
            "model_client_cls" := VStr "OtherModelClient" ]} ];
     Registry.registered :=
       {[ "CustomModelClient" :=
            Registry.CustomModelClient_cls (provider := steady_provider) ]};
     Registry.resolved := ∅ |}.

(** A configuration with provider-specific extra fields. *)
Definition config_with_extras : gmap string value :=
  {[ "model" := VStr "gemini/gemini-1.5-pro";
     "model_client_cls" := VStr "CustomModelClient";
     "api_base" := VStr "https://example.invalid/v1";
     "temperature" := VInt 0 ]}.

(** ** class ModelClientResponseProtocol *)

Module ModelClientResponseProtocol.

(** [Optional[str]]. *)
Definition optional_str (v : value) : bool :=
  match v with
  | VNone | VStr _ => true
  | _ => false
  end.

(** [class Message(Protocol)]: [content: Optional[str]]. *)
Definition Message (m : value) : bool :=
  match Py.getattr m "content" with
  | Ok content => optional_str content
  | Raise _ => false
  end.

(** [class Choice(Protocol)]: [message: Message]. *)
Definition Choice (c : value) : bool :=
  match Py.getattr c "message" with
  | Ok m => Message m
  | Raise _ => false
  end.

(** The members the protocol class declares, with their declared types:
    [choices: List[Choice]] and [model: str]. *)
Definition conforms (response : value) : bool :=
  match Py.getattr response "choices", Py.getattr response "model" with
  | Ok (VList choices), Ok (VStr _) => forallb Choice choices
  | _, _ => false
  end.

End ModelClientResponseProtocol.

(** A provider that answers with two choices, the second without text. *)
Definition two_choice_response : value :=
  VObj {[ "model" := VStr "gemini/gemini-pro";
          "choices" := VList [choice (message "assistant" (VStr "Hello"));
                              choice (message "assistant" VNone)] ]}.

Definition two_choice_provider : Provider := λ _ _ _, Ok two_choice_response.

(** * Properties *)

Import CustomModelClient.

(** Unfolds the monad so that a method body reads as a plain function of
    the world. *)
Ltac run_monad :=
  unfold mbind, M_bind, mret, M_ret, lift, raise, call_completion in *; cbn.

(** ** Helper lemmas on the primitives *)

Lemma getattr_raises obj name e :
  Py.getattr obj name = Raise e → e = AttributeError name.
Proof.
  unfold Py.getattr. destruct obj; try congruence.
  destruct (attrs !! name); congruence.
Qed.

Lemma choice_content_has_content c text :
  choice_content c = Ok text ↔ has_content c text.
Proof.
  unfold choice_content, has_content. split.
  - destruct (Py.getattr c "message") as [m|e] eqn:Hm; [|done].
    intros Hc. by exists m.
  - intros (m & -> & Hc). done.
Qed.

Lemma choice_content_raises c e :
  choice_content c = Raise e →
  e = AttributeError "message" ∨ e = AttributeError "content".
Proof.
  unfold choice_content.
  destruct (Py.getattr c "message") as [m|e'] eqn:Hm.
  - intros Hc. right. by apply getattr_raises in Hc.
  - intros [= <-]. left. by apply getattr_raises in Hm.
Qed.

(** A comprehension over elements on which the body succeeds yields one
    result per element, in order. *)
Lemma comprehension_succeeds f l :
  Forall (λ x, ∃ y, f x = Ok y) l →
  ∃ ys, Py.comprehension f l = Ok ys ∧ Forall2 (λ x y, f x = Ok y) l ys.
Proof.
  induction 1 as [|x xs [y Hy] _ (ys & Hys & HF)]; cbn.
  - exists []. by split.
  - rewrite Hy, Hys. exists (y :: ys). split; [done|]. by constructor.
Qed.

(** A comprehension raises as soon as the body raises on some element, and
    what it raises is what the body raised on one of them. *)
Lemma comprehension_raises f l :
  Exists (λ x, ∃ e, f x = Raise e) l →
  ∃ x e, x ∈ l ∧ f x = Raise e ∧ Py.comprehension f l = Raise e.
Proof.
  induction l as [|x xs IH]; intros HE; [by apply Exists_nil in HE|].
  cbn. destruct (f x) as [y|e] eqn:Hx.
  - apply Exists_cons in HE as [[e He]|HE]; [congruence|].
    destruct (IH HE) as (x' & e & Hin & Hx' & ->).
    exists x', e. split; [by right|done].
  - exists x, e. split; [by left|done].
Qed.

(** ** extract_text *)

(** C1: for a response whose choices are well-formed, [message_retrieval]
    returns a list with exactly one entry per choice, the entry at index
    [i] being the [message.content] of the choice at index [i] (possibly
    [None]); nothing is dropped or reordered, and no provider call is
    made. *)
Theorem message_retrieval_aligned self response choices w :
  well_formed_response response choices →
  ∃ texts,
    message_retrieval self response w = (Ok (VList texts), w)
    ∧ length texts = length choices
    ∧ ∀ i c, choices !! i = Some c →
        ∃ text, texts !! i = Some text ∧ has_content c text.
Proof.
  intros [Hchoices Hall].
  assert (Forall (λ c, ∃ t, choice_content c = Ok t) choices) as Hall'.
  { eapply Forall_impl; [exact Hall|]. intros c [t Ht]. exists t.
    by apply choice_content_has_content. }
  destruct (comprehension_succeeds _ _ Hall') as (texts & Hcomp & HF).
  exists texts. split; [|split].
  - unfold message_retrieval. run_monad. rewrite Hchoices. cbn.
    by rewrite Hcomp.
  - symmetry. by eapply Forall2_length.
  - intros i c Hi.
    destruct (Forall2_lookup_l _ _ _ _ _ HF Hi) as (t & Ht & Hc).
    exists t. split; [done|]. by apply choice_content_has_content.
Qed.

Lemma message_retrieval_aligned_witness :
  well_formed_response hello_response
    [choice (message "assistant" (VStr "print('Hello World!')"))]
  ∧ ∃ texts,
      message_retrieval ∅ hello_response w0 = (Ok (VList texts), w0)
      ∧ length texts = 1%nat
      ∧ ∀ i c,
          [choice (message "assistant" (VStr "print('Hello World!')"))] !! i
            = Some c →
          ∃ text, texts !! i = Some text ∧ has_content c text.
Proof.
  assert (well_formed_response hello_response
            [choice (message "assistant" (VStr "print('Hello World!')"))])
    as Hwf.
  { split; [reflexivity|]. constructor; [|constructor].
    exists (VStr "print('Hello World!')").
    exists (message "assistant" (VStr "print('Hello World!')")).
    split; reflexivity. }
  split; [exact Hwf|].
  exact (message_retrieval_aligned ∅ hello_response _ w0 Hwf).
Defined.

(** C3, as the code has it: a choice without its message makes
    [message_retrieval] raise [AttributeError] (for [message], or for
    [content] when an earlier choice's message lacks it), with no partial
    list returned; a response whose [choices] is the empty list is not
    rejected: the result is the empty list. *)
Theorem message_retrieval_contract_violations self response choices w :
  Py.getattr response "choices" = Ok (VList choices) →
  (choices = [] → message_retrieval self response w = (Ok (VList []), w))
  ∧ ((∃ c, c ∈ choices
           ∧ Py.getattr c "message" = Raise (AttributeError "message")) →
     ∃ name, (name = "message" ∨ name = "content")
             ∧ message_retrieval self response w
               = (Raise (AttributeError name), w)).
Proof.
  intros Hchoices. split.
  - intros ->. unfold message_retrieval. run_monad. by rewrite Hchoices.
  - intros (c & Hin & Hmiss).
    assert (Exists (λ x, ∃ e, choice_content x = Raise e) choices) as HE.
    { apply Exists_exists. exists c. split; [done|].
      exists (AttributeError "message"). unfold choice_content.
      by rewrite Hmiss. }
    destruct (comprehension_raises _ _ HE) as (x & e & _ & Hx & Hcomp).
    unfold message_retrieval. run_monad. rewrite Hchoices. cbn.
    rewrite Hcomp.
    destruct (choice_content_raises _ _ Hx) as [-> | ->];
      [exists "message" | exists "content"]; split; auto.
Qed.

Lemma message_retrieval_contract_violations_witness :
  message_retrieval ∅ empty_response w0 = (Ok (VList []), w0)
  ∧ ∃ name, (name = "message" ∨ name = "content")
      ∧ message_retrieval ∅
          (VObj {[ "choices" :=
                     VList [choice (message "assistant" (VStr "hi"));
                            VObj {[ "index" := VInt 1 ]}] ]}) w0
        = (Raise (AttributeError name), w0).
Proof.
  split.
  - apply (message_retrieval_contract_violations ∅ empty_response [] w0);
      reflexivity.
  - apply (message_retrieval_contract_violations ∅
             (VObj {[ "choices" :=
                        VList [choice (message "assistant" (VStr "hi"));
                               VObj {[ "index" := VInt 1 ]}] ]})
             [choice (message "assistant" (VStr "hi"));
              VObj {[ "index" := VInt 1 ]}] w0); [reflexivity|].
    exists (VObj {[ "index" := VInt 1 ]}). split; [|reflexivity].
    apply list_elem_of_lookup. exists 1%nat. reflexivity.
Defined.

(** C3 as stated fails: a response with an empty [choices] violates the
    contract, yet [message_retrieval] returns the empty list instead of
    raising. *)
Lemma message_retrieval_empty_choices_silent :
  violates_contract empty_response
  ∧ message_retrieval ∅ empty_response w0 = (Ok (VList []), w0)
  ∧ ¬ (∀ self response w,
         violates_contract response →
         ∃ e, (message_retrieval self response w).1 = Raise e).
Proof.
  assert (violates_contract empty_response) as Hv.
  { exists []. split; [reflexivity|by left]. }
  split; [exact Hv|]. split; [reflexivity|].
  intros Hclaim. destruct (Hclaim ∅ empty_response w0 Hv) as [e He].
  discriminate He.
Qed.

(** ** compute_usage *)

(** What [get_usage] returns when the provider reports its fields in a
    record or a mapping: exactly the reported fields. *)
Lemma get_usage_reported response fields w :
  Py.getattr response "usage" = Ok (VObj fields)
  ∨ Py.getattr response "usage" = Ok (VDict fields) →
  get_usage response w = (Ok (VDict fields), w).
Proof.
  intros [H|H]; unfold get_usage; run_monad; by rewrite H.
Qed.

(** C2 on the failing inputs: for litellm's three token counters
    [get_usage] returns these three keys only, [cost] and [model] are not
    in the result; and for a response without usage data it raises
    [AttributeError] instead of returning the five keys. *)
Theorem get_usage_omits_unreported_keys :
  (∃ usage,
     get_usage hello_response w0 = (Ok (VDict usage), w0)
     ∧ usage = reported_usage
     ∧ usage !! "cost" = None ∧ usage !! "model" = None
     ∧ ¬ Forall (λ key, is_Some (usage !! key)) RESPONSE_USAGE_KEYS)
  ∧ get_usage response_without_usage w0 = (Raise (AttributeError "usage"), w0).
Proof.
  split; [|reflexivity].
  exists reported_usage. repeat split.
  intros HF. unfold RESPONSE_USAGE_KEYS in HF.
  do 3 apply Forall_cons in HF as [_ HF].
  apply Forall_cons in HF as [[v Hv] _]. discriminate Hv.
Qed.

(** ** compute_cost *)

(** C7: [cost] never fails and never calls the provider; the number it
    returns is 0, which is non-negative, for every response. *)
Theorem cost_is_zero self response w :
  ∃ c, cost self response w = (Ok (VInt c), w) ∧ 0 ≤ c ∧ c = 0.
Proof. exists 0. split; [reflexivity|]. lia. Qed.

(** ** construct *)

(** C5: [__init__] binds the configuration's [model] value when the key is
    present and ["gemini/gemini-pro"] when it is absent; it cannot fail and
    makes no provider call. *)
Theorem init_binds_model self0 config w :
  ∃ self,
    __init__ self0 config w = (Ok self, w)
    ∧ self !! "model"
      = Some match config !! "model" with
             | Some model => model
             | None => VStr "gemini/gemini-pro"
             end.
Proof.
  eexists. split; [reflexivity|].
  unfold Py.setattr_self, Py.dict_get. by rewrite lookup_insert_eq.
Qed.

(** C6, as the code has it: the adapter built from a configuration has the
    single attribute [model]; no other field of the configuration is stored
    on it. *)
Theorem init_stores_model_only config w :
  ∃ self,
    new config w = (Ok self, w)
    ∧ dom self = {["model"]}
    ∧ ∀ key, key ≠ "model" → self !! key = None.
Proof.
  eexists. split; [reflexivity|]. unfold Py.setattr_self. split.
  - rewrite dom_insert_L, dom_empty_L. set_solver.
  - intros key Hkey. by rewrite lookup_insert_ne.
Qed.

(** C6 as stated fails: the extra field [api_base] of a configuration is
    not retained by the adapter constructed from it. *)
Lemma init_drops_extra_fields :
  config_with_extras !! "api_base" = Some (VStr "https://example.invalid/v1")
  ∧ (∃ self, new config_with_extras w0 = (Ok self, w0)
             ∧ self = {[ "model" := VStr "gemini/gemini-1.5-pro" ]}
             ∧ ¬ retains self "api_base" (VStr "https://example.invalid/v1"))
  ∧ ¬ (∀ config key v w,
         key ≠ "model" → config !! key = Some v →
         ∃ self, new config w = (Ok self, w) ∧ retains self key v).
Proof.
  assert (¬ retains {[ "model" := VStr "gemini/gemini-1.5-pro" ]} "api_base"
            (VStr "https://example.invalid/v1")) as Hnot.
  { intros [H | (a & d & Ha & _)]; [discriminate H|].
    apply lookup_singleton_Some in Ha as [_ Ha]. discriminate Ha. }
  split; [reflexivity|]. split.
  - eexists. split; [reflexivity|]. split; [reflexivity|exact Hnot].
  - intros Hclaim.
    destruct (Hclaim config_with_extras "api_base"
                (VStr "https://example.invalid/v1") w0)
      as (self & Hnew & Hret); [done|reflexivity|].
    injection Hnew as <-. by apply Hnot.
Qed.

(** The attribute read back from a freshly constructed adapter. *)
Lemma init_binds_model_lookup config :
  ∃ model,
    Py.setattr_self ∅ "model" (Py.dict_get config "model" default_model)
      !! "model" = Some model.
Proof. eexists. unfold Py.setattr_self. apply lookup_insert_eq. Qed.

(** ** generate *)

(** [create] on an adapter that has its [model] and on parameters that
    have their [messages]: one provider call, whose outcome is the
    outcome of [create]. *)
Lemma create_with_messages {provider : Provider} self model params messages w :
  self !! "model" = Some model →
  params !! "messages" = Some messages →
  create self params w
  = (completion (length (calls w)) model messages,
     {| calls := calls w ++ [(model, messages)]; notices := notices w |}).
Proof.
  intros Hmodel Hmessages. unfold create, Py.getattr_self, Py.getitem.
  run_monad. rewrite Hmodel. cbn. rewrite Hmessages. cbn.
  by destruct (completion _ _ _).
Qed.

(** [create] on parameters without [messages]: the lookup raises before
    the provider is reached. *)
Lemma create_without_messages {provider : Provider} self model params w :
  self !! "model" = Some model →
  params !! "messages" = None →
  create self params w = (Raise (KeyError "messages"), w).
Proof.
  intros Hmodel Hmessages. unfold create, Py.getattr_self, Py.getitem.
  run_monad. rewrite Hmodel. cbn. by rewrite Hmessages.
Qed.

(** [create] on an instance without [model]: reading the attribute raises
    before the provider is reached. *)
Lemma create_without_model {provider : Provider} self params w :
  self !! "model" = None →
  create self params w = (Raise (AttributeError "model"), w).
Proof.
  intros Hmodel. unfold create, Py.getattr_self. run_monad.
  by rewrite Hmodel.
Qed.

(** C4: when the parameters contain [messages], [create] calls the provider
    once, with the adapter's stored [model] and those messages unchanged,
    and its result is the provider's response (or the exception the
    provider raised). *)
Theorem create_invokes_provider {provider : Provider}
    self model params messages w :
  self !! "model" = Some model →
  params !! "messages" = Some messages →
  ∃ w',
    create self params w = (completion (length (calls w)) model messages, w')
    ∧ calls w' = calls w ++ [(model, messages)]
    ∧ ∀ response,
        completion (length (calls w)) model messages = Ok response →
        (create self params w).1 = Ok response.
Proof.
  intros Hmodel Hmessages.
  exists {| calls := calls w ++ [(model, messages)]; notices := notices w |}.
  rewrite (create_with_messages _ _ _ _ _ Hmodel Hmessages).
  split; [done|]. split; [done|]. by intros response ->.
Qed.

Lemma create_invokes_provider_witness :
  ∃ w',
    create (provider := steady_provider)
      {[ "model" := VStr "gemini/gemini-pro" ]} opening_params w0
    = (Ok hello_response, w')
    ∧ calls w' = [(VStr "gemini/gemini-pro", VList opening_history)]
    ∧ ∀ response,
        Ok hello_response = Ok response →
        (create (provider := steady_provider)
           {[ "model" := VStr "gemini/gemini-pro" ]} opening_params w0).1
        = Ok response.
Proof.
  exact (create_invokes_provider (provider := steady_provider)
           {[ "model" := VStr "gemini/gemini-pro" ]}
           (VStr "gemini/gemini-pro") opening_params (VList opening_history)
           w0 eq_refl eq_refl).
Defined.

(** C8: an invocation of [create] makes exactly one provider call and
    never retries.  The log of provider calls grows by that one call,
    also when the call fails, and the outcome of [create] is the outcome of
    that call: an exception of the provider propagates out of it. *)
Theorem create_never_retries {provider : Provider}
    self model params messages w :
  self !! "model" = Some model →
  params !! "messages" = Some messages →
  length (calls (create self params w).2) = S (length (calls w))
  ∧ calls (create self params w).2 = calls w ++ [(model, messages)]
  ∧ (create self params w).1 = completion (length (calls w)) model messages
  ∧ ∀ e, completion (length (calls w)) model messages = Raise e →
         (create self params w).1 = Raise e.
Proof.
  intros Hmodel Hmessages.
  rewrite (create_with_messages _ _ _ _ _ Hmodel Hmessages). cbn.
  split; [by rewrite length_app, Nat.add_1_r|].
  split; [done|]. split; [done|]. by intros e ->.
Qed.

Lemma create_never_retries_witness :
  length (calls (create (provider := flaky_provider)
                   {[ "model" := VStr "gemini/gemini-pro" ]}
                   opening_params w0).2) = 1%nat
  ∧ calls (create (provider := flaky_provider)
             {[ "model" := VStr "gemini/gemini-pro" ]} opening_params w0).2
    = [(VStr "gemini/gemini-pro", VList opening_history)]
  ∧ (create (provider := flaky_provider)
       {[ "model" := VStr "gemini/gemini-pro" ]} opening_params w0).1
    = Raise (ProviderError (Some 503)).
Proof.
  destruct (create_never_retries (provider := flaky_provider)
              {[ "model" := VStr "gemini/gemini-pro" ]}
              (VStr "gemini/gemini-pro") opening_params
              (VList opening_history) w0)
    as (Hlength & Hcalls & _ & Hraise); [reflexivity..|].
  split; [exact Hlength|]. split; [exact Hcalls|].
  apply Hraise. reflexivity.
Defined.

(** C10: on parameters without a [messages] key, [create] of a constructed
    adapter raises [KeyError] for that key, and the provider has not been
    called. *)
Theorem create_requires_messages {provider : Provider} config params w :
  params !! "messages" = None →
  ∃ self,
    new config w = (Ok self, w)
    ∧ create self params w = (Raise (KeyError "messages"), w)
    ∧ calls (create self params w).2 = calls w.
Proof.
  intros Hmessages.
  destruct (init_binds_model_lookup config) as [model Hmodel].
  eexists. split; [reflexivity|].
  rewrite (create_without_messages _ _ _ _ Hmodel Hmessages). done.
Qed.

Lemma create_requires_messages_witness :
  ∃ self,
    new {[ "model" := VStr "gemini/gemini-pro";
           "model_client_cls" := VStr "CustomModelClient" ]} w0
    = (Ok self, w0)
    ∧ create (provider := steady_provider) self
        {[ "temperature" := VInt 0 ]} w0
      = (Raise (KeyError "messages"), w0)
    ∧ calls (create (provider := steady_provider) self
               {[ "temperature" := VInt 0 ]} w0).2 = calls w0.
Proof.
  exact (create_requires_messages (provider := steady_provider)
           {[ "model" := VStr "gemini/gemini-pro";
              "model_client_cls" := VStr "CustomModelClient" ]}
           {[ "temperature" := VInt 0 ]} w0 eq_refl).
Defined.

(** ** The client registry *)

(** Resolving an entry whose class identifier nothing has registered
    raises, and the world is untouched. *)
Lemma resolve_unregistered agent entry identifier w :
  entry !! "model_client_cls" = Some (VStr identifier) →
  Registry.registered agent !! identifier = None →
  Registry.resolve agent entry w
  = (Raise (ConfigurationError (Some identifier)), w).
Proof.
  intros Hentry Hreg. unfold Registry.resolve. by rewrite Hentry, Hreg.
Qed.

(** Validation stops at an entry that cannot be resolved: with an
    unregistered identifier anywhere in the list it raises, and what it
    reports is a malformed entry or an identifier of the list that is not
    registered. *)
Lemma validate_entries_unregistered classes config_list entry identifier :
  entry ∈ config_list →
  entry !! "model_client_cls" = Some (VStr identifier) →
  classes !! identifier = None →
  ∃ detail,
    Registry.validate_entries classes config_list
    = Raise (ConfigurationError detail)
    ∧ (detail = None
       ∨ ∃ entry' identifier',
           detail = Some identifier'
           ∧ entry' ∈ config_list
           ∧ entry' !! "model_client_cls" = Some (VStr identifier')
           ∧ classes !! identifier' = None).
Proof.
  intros Hin Hentry Hclass.
  induction config_list as [|e rest IH]; [by apply elem_of_nil in Hin|].
  cbn. destruct (e !! "model_client_cls") as [[| |named| | | |]|] eqn:He;
    try (exists None; split; [done|by left]).
  destruct (classes !! named) as [cls|] eqn:Hnamed.
  - apply elem_of_cons in Hin as [->|Hin]; [congruence|].
    destruct (IH Hin) as (detail & Hv & Hd). exists detail. split; [done|].
    destruct Hd as [->|(e' & id' & -> & Hin' & He' & Hid')]; [by left|].
    right. exists e', id'. split; [done|]. split; [by right|done].
  - exists (Some named). split; [done|]. right. exists e, named.
    split; [done|]. split; [by left|done].
Qed.

(** C9: for an agent whose configuration names, in any entry, an adapter
    class that is not registered, resolving that entry raises a
    ConfigurationError, and the error is reported at validation, before any
    generate call is attempted: [initiate_chat] raises it with the log of
    provider calls unchanged, without reaching a turn, also when the turn
    would not have needed that adapter. *)
Theorem unregistered_identifier_raises agent identifier opening_message w :
  names_unregistered agent identifier →
  (∀ entry,
     entry !! "model_client_cls" = Some (VStr identifier) →
     Registry.resolve agent entry w
     = (Raise (ConfigurationError (Some identifier)), w))
  ∧ ∃ detail,
      Registry.validate agent w = (Raise (ConfigurationError detail), w)
      ∧ Registry.initiate_chat agent opening_message w
        = (Raise (ConfigurationError detail), w)
      ∧ calls (Registry.initiate_chat agent opening_message w).2 = calls w
      ∧ (detail = None
         ∨ ∃ identifier', detail = Some identifier'
                          ∧ names_unregistered agent identifier').
Proof.
  intros (entry & Hin & Hentry & Hclass). split.
  - intros entry' Hentry'. by apply resolve_unregistered.
  - destruct (validate_entries_unregistered _ _ _ _ Hin Hentry Hclass)
      as (detail & Hv & Hd).
    assert (Registry.validate agent w = (Raise (ConfigurationError detail), w))
      as Hvalidate.
    { unfold Registry.validate, lift. by rewrite Hv. }
    assert (Registry.initiate_chat agent opening_message w
            = (Raise (ConfigurationError detail), w)) as Hinit.
    { unfold Registry.initiate_chat, mbind, M_bind. by rewrite Hvalidate. }
    exists detail. split; [exact Hvalidate|]. split; [exact Hinit|].
    split; [by rewrite Hinit|].
    destruct Hd as [->|(e' & id' & -> & Hin' & He' & Hid')]; [by left|].
    right. exists id'. split; [done|]. by exists e'.
Qed.

Lemma unregistered_identifier_raises_witness :
  names_unregistered half_registered_agent "OtherModelClient"
  ∧ ∃ detail,
      Registry.validate half_registered_agent w0
      = (Raise (ConfigurationError detail), w0)
      ∧ Registry.initiate_chat half_registered_agent
          (VDict {[ "content" := VStr "Write python code to print Hello World!";
                    "role" := VStr "user" ]}) w0
        = (Raise (ConfigurationError detail), w0)
      ∧ calls (Registry.initiate_chat half_registered_agent
                 (VDict {[ "content" :=
                             VStr "Write python code to print Hello World!";
                           "role" := VStr "user" ]}) w0).2 = calls w0
      ∧ (detail = None
         ∨ ∃ identifier', detail = Some identifier'
                          ∧ names_unregistered half_registered_agent
                              identifier').
Proof.
  assert (names_unregistered half_registered_agent "OtherModelClient")
    as Hnames.
  { exists {[ "model" := VStr "gemini/gemini-pro-vision";
              "model_client_cls" := VStr "OtherModelClient" ]}.
    split; [right; left|split; reflexivity]. }
  split; [exact Hnames|].
  exact (proj2 (unregistered_identifier_raises half_registered_agent
                  "OtherModelClient" _ w0 Hnames)).
Defined.

(** Without the validation the first turn of that agent would succeed,
    after a provider call: it needs the first adapter only. *)
Lemma half_registered_turn_succeeds :
  ∃ agent texts w1,
    Registry.generate_turn half_registered_agent opening_history w0
    = (Ok (agent, texts), w1)
    ∧ calls w1 = [(VStr "gemini/gemini-pro", VList opening_history)].
Proof. do 3 eexists. vm_compute. split; reflexivity. Qed.

(** Construction, registration and the opening of the chat, in the order of
    the notebook: the adapter is resolved and makes its one provider
    call. *)
Lemma registered_identifier_generates :
  ∃ agent agent' w1 r,
    Registry.AssistantAgent config_list_custom w0 = (Ok agent, w1)
    ∧ Registry.register_model_client agent "CustomModelClient"
        (Registry.CustomModelClient_cls (provider := steady_provider)) w1
      = (Ok agent', w1)
    ∧ Registry.initiate_chat agent'
        (VDict {[ "content" := VStr "Write python code to print Hello World!";
                  "role" := VStr "user" ]}) w1
      = (Ok (r, VList [VStr "print('Hello World!')"]),
         {| calls := [(VStr "gemini/gemini-pro", VList opening_history)];
            notices := notices w1 |}).
Proof.
  do 4 eexists. split; [reflexivity|]. split; [reflexivity|].
  vm_compute. reflexivity.
Qed.

(** Registering a class that the configuration does not name is refused,
    and nothing is registered. *)
Lemma register_unnamed_class_refused :
  ∃ agent w1,
    Registry.AssistantAgent config_list_custom w0 = (Ok agent, w1)
    ∧ Registry.register_model_client agent "OtherModelClient"
        (Registry.CustomModelClient_cls (provider := steady_provider)) w1
      = (Raise ValueError, w1).
Proof. do 2 eexists. split; reflexivity. Qed.

(** * Further properties of the client class *)

(** ** Helper lemmas *)

Lemma protocol_choice_content c :
  ModelClientResponseProtocol.Choice c = true →
  ∃ text, choice_content c = Ok text ∧ ModelClientResponseProtocol.optional_str text = true.
Proof.
  unfold ModelClientResponseProtocol.Choice, ModelClientResponseProtocol.Message, choice_content.
  destruct (Py.getattr c "message") as [m|]; [|done].
  destruct (Py.getattr m "content") as [text|]; [|done].
  intros Htext. by exists text.
Qed.

Lemma protocol_choices_comprehension choices :
  forallb ModelClientResponseProtocol.Choice choices = true →
  ∃ texts,
    Py.comprehension choice_content choices = Ok texts
    ∧ length texts = length choices
    ∧ Forall (λ text, ModelClientResponseProtocol.optional_str text = true) texts.
Proof.
  induction choices as [|c cs IH]; cbn.
  - intros _. exists []. by repeat split.
  - intros [Hc Hcs]%andb_prop.
    destruct (protocol_choice_content c Hc) as (text & -> & Htext).
    destruct (IH Hcs) as (texts & -> & Hlen & Hall).
    exists (text :: texts). split; [done|]. split; [cbn; by rewrite Hlen|].
    by constructor.
Qed.

Lemma protocol_conforms_choices response :
  ModelClientResponseProtocol.conforms response = true →
  ∃ choices,
    Py.getattr response "choices" = Ok (VList choices)
    ∧ forallb ModelClientResponseProtocol.Choice choices = true.
Proof.
  unfold ModelClientResponseProtocol.conforms.
  destruct (Py.getattr response "choices") as [[| | |choices| | |]|]; try done.
  destruct (Py.getattr response "model") as [[]|]; try done.
  intros H. by exists choices.
Qed.

(** The comprehension stops at the first element on which its body raises,
    whatever follows. *)
Lemma comprehension_first_failure f good bad rest e :
  Forall (λ x, ∃ y, f x = Ok y) good →
  f bad = Raise e →
  Py.comprehension f (good ++ bad :: rest) = Raise e.
Proof.
  intros Hgood Hbad. induction Hgood as [|x xs [y Hy] _ IH]; cbn.
  - by rewrite Hbad.
  - by rewrite Hy, IH.
Qed.

(** ** message_retrieval *)

(** X1: on a response that conforms to [ModelClientResponseProtocol],
    [message_retrieval] cannot fail: it returns a list with one entry per
    choice, and every entry is a string or [None]. *)
Theorem message_retrieval_on_protocol_response self response w :
  ModelClientResponseProtocol.conforms response = true →
  ∃ choices texts,
    Py.getattr response "choices" = Ok (VList choices)
    ∧ message_retrieval self response w = (Ok (VList texts), w)
    ∧ length texts = length choices
    ∧ Forall (λ text, ModelClientResponseProtocol.optional_str text = true) texts.
Proof.
  intros Hconf.
  destruct (protocol_conforms_choices response Hconf) as (choices & Hc & Hall).
  destruct (protocol_choices_comprehension choices Hall)
    as (texts & Hcomp & Hlen & Htexts).
  exists choices, texts. split; [done|]. split; [|by split].
  unfold message_retrieval. run_monad. rewrite Hc. cbn. by rewrite Hcomp.
Qed.

Lemma message_retrieval_on_protocol_response_witness :
  ∃ choices texts,
    Py.getattr two_choice_response "choices" = Ok (VList choices)
    ∧ message_retrieval ∅ two_choice_response w0 = (Ok (VList texts), w0)
    ∧ length texts = length choices
    ∧ Forall (λ text, ModelClientResponseProtocol.optional_str text = true) texts.
Proof.
  apply (message_retrieval_on_protocol_response ∅ two_choice_response w0).
  reflexivity.
Defined.

(** X2: the first choice that cannot be read decides the outcome of
    [message_retrieval].  When the choices before it are readable, a
    choice without [message] makes it raise [AttributeError] for
    [message], and a choice whose message has no [content] makes it raise
    [AttributeError] for [content]; the choices after it are not looked
    at, and no list is returned. *)
Theorem message_retrieval_first_failure self response good bad rest w :
  Py.getattr response "choices" = Ok (VList (good ++ bad :: rest)) →
  Forall (λ c, ∃ text, has_content c text) good →
  (Py.getattr bad "message" = Raise (AttributeError "message") →
   message_retrieval self response w = (Raise (AttributeError "message"), w))
  ∧ (∀ m, Py.getattr bad "message" = Ok m →
          Py.getattr m "content" = Raise (AttributeError "content") →
          message_retrieval self response w
          = (Raise (AttributeError "content"), w)).
Proof.
  intros Hchoices Hgood.
  assert (Forall (λ c, ∃ t, choice_content c = Ok t) good) as Hgood'.
  { eapply Forall_impl; [exact Hgood|]. intros c [t Ht]. exists t.
    by apply choice_content_has_content. }
  assert (∀ e, choice_content bad = Raise e →
               message_retrieval self response w = (Raise e, w)) as Hfail.
  { intros e He. unfold message_retrieval. run_monad. rewrite Hchoices. cbn.
    by rewrite (comprehension_first_failure _ good bad rest e Hgood' He). }
  split.
  - intros Hbad. apply Hfail. unfold choice_content. by rewrite Hbad.
  - intros m Hm Hcontent. apply Hfail. unfold choice_content.
    by rewrite Hm, Hcontent.
Qed.

Lemma message_retrieval_first_failure_witness :
  message_retrieval ∅
    (VObj {[ "choices" :=
               VList [choice (message "assistant" (VStr "hi"));
                      VObj {[ "index" := VInt 1 ]};
                      choice (VObj {[ "role" := VStr "assistant" ]})] ]}) w0
  = (Raise (AttributeError "message"), w0)
  ∧ message_retrieval ∅
      (VObj {[ "choices" :=
                 VList [choice (message "assistant" (VStr "hi"));
                        choice (VObj {[ "role" := VStr "assistant" ]});
                        VObj {[ "index" := VInt 2 ]}] ]}) w0
    = (Raise (AttributeError "content"), w0).
Proof.
  assert (Forall (λ c, ∃ text, has_content c text)
            [choice (message "assistant" (VStr "hi"))]) as Hgood.
  { constructor; [|constructor]. exists (VStr "hi").
    exists (message "assistant" (VStr "hi")). split; reflexivity. }
  split.
  - apply (message_retrieval_first_failure ∅ _
             [choice (message "assistant" (VStr "hi"))]
             (VObj {[ "index" := VInt 1 ]})
             [choice (VObj {[ "role" := VStr "assistant" ]})] w0);
      [reflexivity|exact Hgood|reflexivity].
  - destruct (message_retrieval_first_failure ∅
                (VObj {[ "choices" :=
                           VList [choice (message "assistant" (VStr "hi"));
                                  choice (VObj {[ "role" := VStr "assistant" ]});
                                  VObj {[ "index" := VInt 2 ]}] ]})
                [choice (message "assistant" (VStr "hi"))]
                (choice (VObj {[ "role" := VStr "assistant" ]}))
                [VObj {[ "index" := VInt 2 ]}] w0)
      as [_ Hcontent]; [reflexivity|exact Hgood|].
    apply (Hcontent (VObj {[ "role" := VStr "assistant" ]})); reflexivity.
Defined.

(** X3: what [message_retrieval] does with a value that is not a response
    object with a usable [choices].  A plain dictionary, even one holding a
    [choices] key, and an object without the attribute raise
    [AttributeError] for [choices]; an object whose [choices] is [None]
    raises [TypeError], [None] not being iterable. *)
Theorem message_retrieval_rejects_malformed self (d attrs : gmap string value) w :
  message_retrieval self (VDict d) w = (Raise (AttributeError "choices"), w)
  ∧ (attrs !! "choices" = None →
     message_retrieval self (VObj attrs) w
     = (Raise (AttributeError "choices"), w))
  ∧ (attrs !! "choices" = Some VNone →
     message_retrieval self (VObj attrs) w = (Raise TypeError, w)).
Proof.
  split; [reflexivity|].
  split; intros Hattrs; unfold message_retrieval, Py.getattr; run_monad;
    by rewrite Hattrs.
Qed.

Lemma message_retrieval_rejects_malformed_witness :
  message_retrieval ∅ (VDict {[ "choices" := VList [] ]}) w0
  = (Raise (AttributeError "choices"), w0)
  ∧ message_retrieval ∅ (VObj {[ "model" := VStr "gemini/gemini-pro" ]}) w0
    = (Raise (AttributeError "choices"), w0)
  ∧ message_retrieval ∅ (VObj {[ "choices" := VNone ]}) w0
    = (Raise TypeError, w0).
Proof.
  split; [|split].
  - apply (message_retrieval_rejects_malformed ∅
             {[ "choices" := VList [] ]} ∅ w0).
  - apply (message_retrieval_rejects_malformed ∅ ∅
             {[ "model" := VStr "gemini/gemini-pro" ]} w0). reflexivity.
  - apply (message_retrieval_rejects_malformed ∅ ∅
             {[ "choices" := VNone ]} w0). reflexivity.
Defined.

(** X4: [message_retrieval], [cost] and [get_usage] never reach the
    provider and never log: whatever they are given and whether they
    return or raise, the world after them is the world before. *)
Theorem readers_leave_world_unchanged self response w :
  (message_retrieval self response w).2 = w
  ∧ (cost self response w).2 = w
  ∧ (get_usage response w).2 = w.
Proof.
  split; [|split; [reflexivity|]].
  - unfold message_retrieval. run_monad.
    destruct (Py.getattr response "choices") as [choices|]; [|done]. cbn.
    destruct (Py.iterate choices) as [elements|]; [|done]. cbn.
    by destruct (Py.comprehension choice_content elements).
  - unfold get_usage. run_monad.
    by destruct (Py.getattr response "usage").
Qed.

(** ** get_usage *)

(** X5: [get_usage] by what the response holds under [usage].  Without the
    attribute it raises [AttributeError]; with [usage] set to [None] it
    raises [TypeError]; with a record or a mapping it returns a dictionary
    that has, under every key, exactly what the provider reported under
    it: no key is added, dropped or changed. *)
Theorem get_usage_by_shape (attrs fields : gmap string value) w :
  (attrs !! "usage" = None →
   get_usage (VObj attrs) w = (Raise (AttributeError "usage"), w))
  ∧ (attrs !! "usage" = Some VNone →
     get_usage (VObj attrs) w = (Raise TypeError, w))
  ∧ (attrs !! "usage" = Some (VObj fields)
     ∨ attrs !! "usage" = Some (VDict fields) →
     ∃ usage,
       get_usage (VObj attrs) w = (Ok (VDict usage), w)
       ∧ ∀ key, usage !! key = fields !! key).
Proof.
  split; [|split].
  - intros H. unfold get_usage, Py.getattr. run_monad. by rewrite H.
  - intros H. unfold get_usage, Py.getattr. run_monad. by rewrite H.
  - intros H. exists fields. split; [|done].
    destruct H as [H|H]; unfold get_usage, Py.getattr; run_monad;
      by rewrite H.
Qed.

Lemma get_usage_by_shape_witness :
  get_usage (VObj {[ "model" := VStr "gemini/gemini-pro" ]}) w0
  = (Raise (AttributeError "usage"), w0)
  ∧ get_usage (VObj {[ "usage" := VNone ]}) w0 = (Raise TypeError, w0)
  ∧ ∃ usage,
      get_usage (VObj {[ "usage" := VDict reported_usage ]}) w0
      = (Ok (VDict usage), w0)
      ∧ ∀ key, usage !! key = reported_usage !! key.
Proof.
  split; [|split].
  - apply (get_usage_by_shape {[ "model" := VStr "gemini/gemini-pro" ]} ∅ w0).
    reflexivity.
  - apply (get_usage_by_shape {[ "usage" := VNone ]} ∅ w0). reflexivity.
  - apply (get_usage_by_shape {[ "usage" := VDict reported_usage ]}
             reported_usage w0). right. reflexivity.
Defined.

(** ** __init__ and create together *)

(** X6: the model sent to the provider by a constructed adapter is the
    value the configuration holds under [model], whatever it is (an
    explicit [None] included); only a configuration without that key makes
    the adapter send ["gemini/gemini-pro"]. *)
Theorem create_sends_configured_model {provider : Provider}
    config params messages w :
  params !! "messages" = Some messages →
  ∃ self,
    new config w = (Ok self, w)
    ∧ (∀ model, config !! "model" = Some model →
         create self params w
         = (completion (length (calls w)) model messages,
            {| calls := calls w ++ [(model, messages)];
               notices := notices w |}))
    ∧ (config !! "model" = None →
       create self params w
       = (completion (length (calls w)) (VStr "gemini/gemini-pro") messages,
          {| calls := calls w ++ [(VStr "gemini/gemini-pro", messages)];
             notices := notices w |})).
Proof.
  intros Hmessages. eexists. split; [reflexivity|].
  split; [intros model Hconfig | intros Hconfig];
    apply create_with_messages; try done;
    unfold Py.setattr_self, Py.dict_get; rewrite Hconfig;
    apply lookup_insert_eq.
Qed.

Lemma create_sends_configured_model_witness :
  ∃ self,
    new {[ "model" := VNone ]} w0 = (Ok self, w0)
    ∧ create (provider := steady_provider) self opening_params w0
      = (Ok hello_response,
         {| calls := [(VNone, VList opening_history)]; notices := [] |}).
Proof.
  destruct (create_sends_configured_model (provider := steady_provider)
              {[ "model" := VNone ]} opening_params (VList opening_history) w0)
    as (self & Hnew & Hsome & _); [reflexivity|].
  exists self. split; [exact Hnew|]. apply (Hsome VNone). reflexivity.
Defined.

(** X7: [create] forwards nothing but [messages]: two parameter mappings
    with the same [messages] entry (or both without one) give the same
    provider call and the same outcome, whatever else they hold. *)
Theorem create_reads_messages_only {provider : Provider} self params1 params2 w :
  params1 !! "messages" = params2 !! "messages" →
  create self params1 w = create self params2 w.
Proof.
  intros Hsame. unfold create, Py.getitem. run_monad.
  destruct (Py.getattr_self self "model"); [cbn|done].
  by rewrite Hsame.
Qed.

Lemma create_reads_messages_only_witness :
  create (provider := steady_provider) {[ "model" := VStr "gemini/gemini-pro" ]}
    {[ "messages" := VList opening_history; "temperature" := VInt 0;
       "max_tokens" := VInt 16 ]} w0
  = create (provider := steady_provider)
      {[ "model" := VStr "gemini/gemini-pro" ]} opening_params w0.
Proof.
  apply (create_reads_messages_only (provider := steady_provider)).
  reflexivity.
Defined.

(** X8: an adapter serves successive calls.  Two invocations of [create]
    one after the other make two provider calls, logged in order, each
    with the adapter's model; the second one reaches the provider whether
    the first call returned or raised, and each outcome is the provider's
    outcome for that call. *)
Theorem create_twice {provider : Provider}
    self model params1 params2 messages1 messages2 w :
  self !! "model" = Some model →
  params1 !! "messages" = Some messages1 →
  params2 !! "messages" = Some messages2 →
  (create self params1 w).1
  = completion (length (calls w)) model messages1
  ∧ (create self params2 (create self params1 w).2).1
    = completion (S (length (calls w))) model messages2
  ∧ calls (create self params2 (create self params1 w).2).2
    = calls w ++ [(model, messages1); (model, messages2)].
Proof.
  intros Hmodel H1 H2.
  rewrite (create_with_messages _ _ _ _ _ Hmodel H1). cbn.
  rewrite (create_with_messages _ _ _ _ _ Hmodel H2). cbn.
  split; [done|]. split.
  - by rewrite length_app, Nat.add_1_r.
  - by rewrite <- app_assoc.
Qed.

Lemma create_twice_witness :
  (create (provider := flaky_provider)
     {[ "model" := VStr "gemini/gemini-pro" ]} opening_params w0).1
  = Raise (ProviderError (Some 503))
  ∧ (create (provider := flaky_provider)
       {[ "model" := VStr "gemini/gemini-pro" ]} opening_params
       (create (provider := flaky_provider)
          {[ "model" := VStr "gemini/gemini-pro" ]} opening_params w0).2).1
    = Ok hello_response
  ∧ calls (create (provider := flaky_provider)
             {[ "model" := VStr "gemini/gemini-pro" ]} opening_params
             (create (provider := flaky_provider)
                {[ "model" := VStr "gemini/gemini-pro" ]} opening_params
                w0).2).2
    = [(VStr "gemini/gemini-pro", VList opening_history);
       (VStr "gemini/gemini-pro", VList opening_history)].
Proof.
  apply (create_twice (provider := flaky_provider)
           {[ "model" := VStr "gemini/gemini-pro" ]}
           (VStr "gemini/gemini-pro") opening_params opening_params
           (VList opening_history) (VList opening_history) w0);
    reflexivity.
Defined.

(** ** create and message_retrieval together *)

(** X9: [create] followed by [message_retrieval] on its result.  When the
    provider answers with a response that conforms to
    [ModelClientResponseProtocol], the two together return a list of
    strings or [None] after exactly one provider call; when the provider
    raises, the exception comes out after that one call and nothing is
    extracted. *)
Theorem create_then_message_retrieval {provider : Provider}
    self model params messages w :
  self !! "model" = Some model →
  params !! "messages" = Some messages →
  (∀ response,
     completion (length (calls w)) model messages = Ok response →
     ModelClientResponseProtocol.conforms response = true →
     ∃ texts,
       (create self params ≫= message_retrieval self) w
       = (Ok (VList texts),
          {| calls := calls w ++ [(model, messages)]; notices := notices w |})
       ∧ Forall (λ text, ModelClientResponseProtocol.optional_str text = true)
           texts)
  ∧ (∀ e,
       completion (length (calls w)) model messages = Raise e →
       (create self params ≫= message_retrieval self) w
       = (Raise e,
          {| calls := calls w ++ [(model, messages)]; notices := notices w |})).
Proof.
  intros Hmodel Hmessages. split.
  - intros response Hanswer Hconf.
    destruct (protocol_conforms_choices response Hconf)
      as (choices & Hc & Hall).
    destruct (protocol_choices_comprehension choices Hall)
      as (texts & Hcomp & _ & Htexts).
    exists texts. split; [|done].
    unfold mbind at 1, M_bind.
    rewrite (create_with_messages _ _ _ _ _ Hmodel Hmessages), Hanswer.
    unfold message_retrieval. run_monad. rewrite Hc. cbn. by rewrite Hcomp.
  - intros e Hanswer. unfold mbind at 1, M_bind.
    by rewrite (create_with_messages _ _ _ _ _ Hmodel Hmessages), Hanswer.
Qed.

Lemma create_then_message_retrieval_witness :
  (∃ texts,
     (create (provider := two_choice_provider)
        {[ "model" := VStr "gemini/gemini-pro" ]} opening_params
      ≫= message_retrieval {[ "model" := VStr "gemini/gemini-pro" ]}) w0
     = (Ok (VList texts),
        {| calls := [(VStr "gemini/gemini-pro", VList opening_history)];
           notices := [] |})
     ∧ Forall (λ text, ModelClientResponseProtocol.optional_str text = true)
         texts)
  ∧ (create (provider := flaky_provider)
       {[ "model" := VStr "gemini/gemini-pro" ]} opening_params
     ≫= message_retrieval {[ "model" := VStr "gemini/gemini-pro" ]}) w0
    = (Raise (ProviderError (Some 503)),
       {| calls := [(VStr "gemini/gemini-pro", VList opening_history)];
          notices := [] |}).
Proof.
  split.
  - destruct (create_then_message_retrieval (provider := two_choice_provider)
                {[ "model" := VStr "gemini/gemini-pro" ]}
                (VStr "gemini/gemini-pro") opening_params
                (VList opening_history) w0) as [Hok _]; [reflexivity..|].
    apply (Hok two_choice_response); reflexivity.
  - destruct (create_then_message_retrieval (provider := flaky_provider)
                {[ "model" := VStr "gemini/gemini-pro" ]}
                (VStr "gemini/gemini-pro") opening_params
                (VList opening_history) w0) as [_ Hraise]; [reflexivity..|].
    apply (Hraise (ProviderError (Some 503))). reflexivity.
Defined.
